(** * Buffer traits of Boost.Beast: [boost/beast/core/buffer_traits.hpp]

    The header is a small type algebra evaluated by the C++ compiler.  Its
    embedding is a set of functions over a syntax of C++ types:

    - [std]: the fragment of the type system and of [<type_traits>] the header
      uses ([std::decay], [std::conditional], [std::declval], the type
      [T const&]);
    - [mp11]: [mp11::mp_all];
    - [net]: the interface Boost.Asio ([<boost/asio/buffer.hpp>]) offers to
      the header, as a type class, because Asio is not part of this header;
    - [beast]: the four aliases of the header, written over that interface;
    - [asio]: one instance of the interface over a small library of classes,
      used to run the aliases on concrete types. *)

From Stdlib Require Import List Bool String.
Import ListNotations.

Set Warnings "-register-all".

(** ** C++ types *)

Module std.

(** cv-qualification of an object type. *)
Record cv : Set := Cv { is_const : bool; is_volatile : bool }.

Definition unqualified : cv := Cv false false.
Definition const : cv := Cv true false.

Definition with_const (q : cv) : cv := Cv true (is_volatile q).

(** The types that have a name: the two buffer views of Asio, and any other
    class or fundamental type, known by its spelling. *)
Inductive tyname : Set :=
| const_buffer_name
| mutable_buffer_name
| other (id : string).

(** Types.  Qualifiers sit on the object types that can carry them; an array
    is qualified through its element type; references and function types
    carry none. *)
Inductive type : Set :=
| Named (q : cv) (n : tyname)
| Ptr (q : cv) (pointee : type)
| Arr (elem : type) (bound : option nat)
| Fn (ret : type) (params : list type)
| LRef (referred : type)
| RRef (referred : type).

(** [std::remove_reference<T>::type] *)
Definition remove_reference (T : type) : type :=
  match T with
  | LRef U | RRef U => U
  | _ => T
  end.

(** [std::remove_cv<T>::type] *)
Fixpoint remove_cv (T : type) : type :=
  match T with
  | Named _ n => Named unqualified n
  | Ptr _ p => Ptr unqualified p
  | Arr e b => Arr (remove_cv e) b
  | _ => T
  end.

(** [T const]: ignored on references and function types. *)
Fixpoint add_const (T : type) : type :=
  match T with
  | Named q n => Named (with_const q) n
  | Ptr q p => Ptr (with_const q) p
  | Arr e b => Arr (add_const e) b
  | _ => T
  end.

(** [T&], with reference collapsing: [T& &] and [T&& &] are [T&]. *)
Definition add_lvalue_reference (T : type) : type :=
  LRef (remove_reference T).

(** [T&&], with reference collapsing: [T& &&] is [T&]. *)
Definition add_rvalue_reference (T : type) : type :=
  match T with
  | LRef _ | RRef _ => T
  | _ => RRef T
  end.

(** [std::is_reference<T>::value] *)
Definition is_reference (T : type) : bool :=
  match T with
  | LRef _ | RRef _ => true
  | _ => false
  end.

(** [std::is_array<T>::value] *)
Definition is_array (T : type) : bool :=
  match T with
  | Arr _ _ => true
  | _ => false
  end.

(** The type written [T const*] in the header. *)
Definition pointer_to_const (T : type) : type :=
  Ptr unqualified (add_const T).

(** The type written [T const&] in the header. *)
Definition const_ref (T : type) : type :=
  add_lvalue_reference (add_const T).

(** [decltype(std::declval<T>())], for a type other than [void]: a call that
    returns an rvalue reference to a function is an lvalue, and any other
    call has its return type [T&&].  The header applies it to [T const&]. *)
Definition declval (T : type) : type :=
  match T with
  | Fn _ _ => LRef T
  | _ => add_rvalue_reference T
  end.

(** [std::decay<T>::type]: the reference is removed; an array becomes a
    pointer to its element, a function a pointer to it, and any other type
    loses its top-level cv-qualifiers. *)
Definition decay (T : type) : type :=
  let U := remove_reference T in
  match U with
  | Arr e _ => Ptr unqualified e
  | Fn _ _ => Ptr unqualified U
  | _ => remove_cv U
  end.

(** [std::conditional<B, T, F>::type] *)
Definition conditional (B : bool) (T F : type) : type :=
  if B then T else F.

End std.

(** ** Boost.Mp11 *)

Module mp11.

(** [mp_and<T...>]: [mp_true] on the empty list, the first false element
    otherwise, and the last element when there is none. *)
Fixpoint mp_and (L : list bool) : bool :=
  match L with
  | [] => true
  | [T1] => T1
  | T1 :: TN => if T1 then mp_and TN else T1
  end.

(** [mp_to_bool<T>] is [mp_bool<static_cast<bool>(T::value)>]. *)
Definition mp_to_bool (T : bool) : bool := T.

(** [mp_all<T...>] is [mp_and<mp_to_bool<T>...>]. *)
Definition mp_all (L : list bool) : bool := mp_and (map mp_to_bool L).

End mp11.

(** ** What the header takes from Boost.Asio *)

Module net.

Import std.

(** [net::const_buffer], the read-only view, and [net::mutable_buffer], the
    read-write view. *)
Definition const_buffer : type := Named unqualified const_buffer_name.
Definition mutable_buffer : type := Named unqualified mutable_buffer_name.

(** The two per-type traits, and the overload set
    [net::buffer_sequence_begin]: given the type of the argument expression
    it gives the type of the call, or [None] when no overload is viable. *)
Class Traits : Type := {
  is_const_buffer_sequence : type -> bool;
  is_mutable_buffer_sequence : type -> bool;
  buffer_sequence_begin : type -> option type
}.

(** Capability widening, per type: Asio classifies [T] as a constant buffer
    sequence whenever it classifies it as a mutable one. *)
Definition widens {N : Traits} (T : type) : Prop :=
  is_mutable_buffer_sequence T = true -> is_const_buffer_sequence T = true.

End net.

(** ** The header *)

Module beast.

Import std.

(** Lines 37-40. *)
Definition is_const_buffer_sequence {N : net.Traits} (TN : list type) : bool :=
  mp11.mp_all (map (fun T => net.is_const_buffer_sequence (decay T)) TN).

(** Lines 58-61. *)
Definition is_mutable_buffer_sequence {N : net.Traits} (TN : list type) : bool :=
  mp11.mp_all (map (fun T => net.is_mutable_buffer_sequence (decay T)) TN).

(** Lines 102-104. *)
Definition buffers_type {N : net.Traits} (TN : list type) : type :=
  conditional (is_mutable_buffer_sequence TN)
    net.mutable_buffer net.const_buffer.

Module detail.

(** Lines 110-130: the primary template, and its two explicit
    specializations.  [None] is a substitution failure. *)
Definition buffers_iterator_type_helper {N : net.Traits} (T : type)
  : option type :=
  match T with
  | Named (Cv false false) const_buffer_name =>
      Some (pointer_to_const net.const_buffer)
  | Named (Cv false false) mutable_buffer_name =>
      Some (pointer_to_const net.mutable_buffer)
  | _ => net.buffer_sequence_begin (declval (const_ref T))
  end.

End detail.

(** Lines 149-156.  [workaround] is [BOOST_WORKAROUND(BOOST_MSVC, < 1910)]. *)
Definition buffers_iterator_type {N : net.Traits} (workaround : bool)
    (T : type) : option type :=
  if workaround
  then detail.buffers_iterator_type_helper (decay T)
  else net.buffer_sequence_begin (declval (const_ref T)).

End beast.

(** ** An instance of the Asio interface

    The traits and the overload set of [<boost/asio/buffer.hpp>], over a
    library of four container classes.  A class is described by what the
    traits look at: its [iterator], its [const_iterator] and its
    [value_type]. *)

Module asio.

Import std.
Local Open Scope string_scope.

Record class_decl : Set := {
  iterator : type;
  const_iterator : type;
  value_type : type
}.

Definition class (id : string) : type := Named unqualified (other id).

Definition container (id : string) (value : type) : class_decl :=
  {| iterator := class (id ++ "::iterator");
     const_iterator := class (id ++ "::const_iterator");
     value_type := value |}.

(** The classes that have [begin] and [end]; any other name ([int], a class
    without iteration) has no declaration here.  [mutable_view] is a class
    of the program, declared as
    [struct mutable_view { operator net::mutable_buffer() const; };]. *)
Definition classes (id : string) : option class_decl :=
  if id =? "std::vector<net::mutable_buffer>" then
    Some (container id net.mutable_buffer)
  else if id =? "std::vector<net::const_buffer>" then
    Some (container id net.const_buffer)
  else if id =? "std::string" then
    Some (container id (class "char"))
  else if id =? "std::vector<mutable_view>" then
    Some (container id (class "mutable_view"))
  else None.

(** The conversion functions of the classes: [mutable_view] has one, to
    [net::mutable_buffer]. *)
Definition conversion_function (id : string) (To : tyname) : bool :=
  match To with
  | mutable_buffer_name => id =? "mutable_view"
  | _ => false
  end.

Definition vector_of_mutable_buffer : type :=
  class "std::vector<net::mutable_buffer>".
Definition vector_of_const_buffer : type :=
  class "std::vector<net::const_buffer>".
Definition std_string : type := class "std::string".
Definition int : type := class "int".
Definition vector_of_mutable_view : type := class "std::vector<mutable_view>".

(** [std::is_convertible<From, Buffer>]: a [mutable_buffer] converts to both
    views, a [const_buffer] to [const_buffer] only, and a class to the target
    of a conversion function of its own: an implicit conversion takes one
    user-defined conversion, so the constructor of [const_buffer] from a
    [mutable_buffer] does not apply after a conversion function. *)
Definition is_convertible (From : type) (Buffer : tyname) : bool :=
  match decay From, Buffer with
  | Named _ mutable_buffer_name, (mutable_buffer_name | const_buffer_name) =>
      true
  | Named _ const_buffer_name, const_buffer_name => true
  | Named _ (other id), _ => conversion_function id Buffer
  | _, _ => false
  end.

(** [detail::is_buffer_sequence<T, Buffer>]: explicit answers for the two
    views, and for a class the test that it iterates over elements
    convertible to [Buffer]. *)
Definition is_buffer_sequence (Buffer : tyname) (T : type) : bool :=
  match T with
  | Named (Cv false false) mutable_buffer_name => true
  | Named (Cv false false) const_buffer_name =>
      match Buffer with const_buffer_name => true | _ => false end
  | Named _ (other id) =>
      match classes id with
      | Some d => is_convertible (value_type d) Buffer
      | None => false
      end
  | _ => false
  end.

(** The overloads of [buffer_sequence_begin] on an object of type
    [Named q n]: the two views give a pointer to the constant view; a class
    gives [c.begin()], the [const_iterator] when the object cannot be bound
    to [C&]. *)
Definition begin_of (bind_mutable : bool) (q : cv) (n : tyname)
  : option type :=
  if is_volatile q then None else
  match n with
  | const_buffer_name => Some (pointer_to_const net.const_buffer)
  | mutable_buffer_name => Some (pointer_to_const net.mutable_buffer)
  | other id =>
      match classes id with
      | Some d =>
          Some (if bind_mutable && negb (is_const q)
                then iterator d else const_iterator d)
      | None => None
      end
  end.

(** An lvalue binds to [C&] or to [const C&], an rvalue to [const C&]. *)
Definition buffer_sequence_begin (arg : type) : option type :=
  match arg with
  | LRef (Named q n) => begin_of true q n
  | RRef (Named q n) | Named q n => begin_of false q n
  | _ => None
  end.

#[global] Instance traits : net.Traits := {|
  net.is_const_buffer_sequence := is_buffer_sequence const_buffer_name;
  net.is_mutable_buffer_sequence := is_buffer_sequence mutable_buffer_name;
  net.buffer_sequence_begin := buffer_sequence_begin
|}.

End asio.

(** * Properties *)

Import std.

(** ** The type traits *)

Lemma remove_cv_add_const (T : type) : remove_cv (add_const T) = remove_cv T.
Proof.
  induction T as [q n | q p _ | e IHe b | | | ]; simpl; try reflexivity.
  now rewrite IHe.
Qed.

(** [T const&] is an lvalue reference, so [declval] leaves it as it is. *)
Lemma declval_const_ref (T : type) : declval (const_ref T) = const_ref T.
Proof. reflexivity. Qed.

Lemma add_const_idempotent (T : type) : add_const (add_const T) = add_const T.
Proof.
  induction T as [[c v] n | [c v] p _ | e IHe b | | | ]; simpl; try reflexivity.
  now rewrite IHe.
Qed.

(** A top-level [const] does not change [T const&]. *)
Lemma const_ref_add_const (T : type) : const_ref (add_const T) = const_ref T.
Proof. unfold const_ref. now rewrite add_const_idempotent. Qed.

(** What [decay] does to an object type that is neither an array nor a
    function: it strips the reference and the qualifiers. *)
Lemma decay_named (q : cv) (n : tyname) :
  decay (Named q n) = Named unqualified n
  /\ decay (LRef (Named q n)) = Named unqualified n
  /\ decay (RRef (Named q n)) = Named unqualified n.
Proof. repeat split. Qed.

(** ** [mp_all] is the conjunction of its arguments *)

Lemma mp_and_cons (b : bool) (L : list bool) :
  mp11.mp_and (b :: L) = b && mp11.mp_and L.
Proof.
  destruct L as [| c L]; simpl.
  - now rewrite andb_true_r.
  - now destruct b.
Qed.

Lemma mp_all_cons (b : bool) (L : list bool) :
  mp11.mp_all (b :: L) = b && mp11.mp_all L.
Proof. unfold mp11.mp_all. rewrite map_cons. apply mp_and_cons. Qed.

Lemma mp_all_forallb (L : list bool) :
  mp11.mp_all L = forallb (fun b => b) L.
Proof.
  induction L as [| b L IH]; [reflexivity |].
  rewrite mp_all_cons, IH. reflexivity.
Qed.

Lemma mp_all_map_true {A : Type} (f : A -> bool) (l : list A) :
  mp11.mp_all (map f l) = true <-> Forall (fun x => f x = true) l.
Proof.
  induction l as [| x l IH]; simpl map.
  - split; [constructor | reflexivity].
  - rewrite mp_all_cons, andb_true_iff, IH. split.
    + intros [Hx Hl]. now constructor.
    + intros H. inversion H; subst. now split.
Qed.

Lemma mp_all_map_false {A : Type} (f : A -> bool) (l : list A) (x : A) :
  In x l -> f x = false -> mp11.mp_all (map f l) = false.
Proof.
  intros Hin Hx. apply not_true_is_false. intros Hall.
  apply mp_all_map_true in Hall. rewrite Forall_forall in Hall.
  specialize (Hall x Hin). congruence.
Qed.

(** ** The capability predicates and [buffers_type] *)

Section Predicates.

Context {N : net.Traits}.

Lemma is_const_buffer_sequence_cons (T : type) (TN : list type) :
  beast.is_const_buffer_sequence (T :: TN)
  = net.is_const_buffer_sequence (decay T) && beast.is_const_buffer_sequence TN.
Proof. apply mp_all_cons. Qed.

Lemma is_mutable_buffer_sequence_cons (T : type) (TN : list type) :
  beast.is_mutable_buffer_sequence (T :: TN)
  = net.is_mutable_buffer_sequence (decay T)
    && beast.is_mutable_buffer_sequence TN.
Proof. apply mp_all_cons. Qed.

(** C5: [is_const_buffer_sequence<T1..Tn>] is true exactly when every decayed
    [Ti] satisfies Asio's per-type constant-buffer-sequence trait, and
    [is_mutable_buffer_sequence<T1..Tn>] exactly when every decayed [Ti]
    satisfies the per-type mutable-buffer-sequence trait. *)
Theorem predicates_are_all_of (TN : list type) :
  (beast.is_const_buffer_sequence TN = true
   <-> Forall (fun T => net.is_const_buffer_sequence (decay T) = true) TN)
  /\ (beast.is_mutable_buffer_sequence TN = true
      <-> Forall (fun T => net.is_mutable_buffer_sequence (decay T) = true) TN).
Proof. split; apply mp_all_map_true. Qed.

(** C1, amended: when Asio widens the decayed form of every type of the
    list, a list classified as mutable is classified as constant too. *)
Theorem mutable_sequence_is_const_sequence (TN : list type) :
  Forall (fun T => net.widens (decay T)) TN ->
  beast.is_mutable_buffer_sequence TN = true ->
  beast.is_const_buffer_sequence TN = true.
Proof.
  induction 1 as [| T TN HT _ IH]; [reflexivity |].
  rewrite is_mutable_buffer_sequence_cons, is_const_buffer_sequence_cons.
  rewrite !andb_true_iff. intros [Hm Hl]. split.
  - exact (HT Hm).
  - exact (IH Hl).
Qed.

(** The assumption is needed: the header adds no check of its own, so a
    type Asio classifies as mutable only is classified so by the header. *)
Lemma widening_is_inherited (T : type) :
  net.is_mutable_buffer_sequence (decay T) = true ->
  net.is_const_buffer_sequence (decay T) = false ->
  beast.is_mutable_buffer_sequence [T] = true
  /\ beast.is_const_buffer_sequence [T] = false.
Proof. intros Hm Hc. split; cbn; assumption. Qed.

(** C3: on the empty list both predicates are true. *)
Theorem predicates_of_empty_list :
  beast.is_const_buffer_sequence [] = true
  /\ beast.is_mutable_buffer_sequence [] = true.
Proof. split; reflexivity. Qed.

Lemma buffer_views_differ : net.mutable_buffer <> net.const_buffer.
Proof. discriminate. Qed.

(** C2: [buffers_type<T1..Tn>] is [net::mutable_buffer] when
    [is_mutable_buffer_sequence<T1..Tn>] holds and [net::const_buffer]
    otherwise, and it is one of the two in no other case. *)
Theorem buffers_type_selects (TN : list type) :
  beast.buffers_type TN
  = (if beast.is_mutable_buffer_sequence TN
     then net.mutable_buffer else net.const_buffer)
  /\ (beast.buffers_type TN = net.mutable_buffer
      <-> beast.is_mutable_buffer_sequence TN = true)
  /\ (beast.buffers_type TN = net.const_buffer
      <-> beast.is_mutable_buffer_sequence TN = false).
Proof.
  unfold beast.buffers_type, conditional.
  destruct (beast.is_mutable_buffer_sequence TN); repeat split;
    try reflexivity; intros H; try discriminate H.
Qed.

(** C4: [buffers_type<>] is [net::mutable_buffer]. *)
Theorem buffers_type_of_empty_list :
  beast.buffers_type [] = net.mutable_buffer.
Proof.
  unfold beast.buffers_type.
  change (beast.is_mutable_buffer_sequence []) with true. reflexivity.
Qed.

(** C10: [buffers_type] resolves on every list, to one of the two views; it
    is [net::const_buffer] whenever the mutable predicate is false, which is
    the case as soon as one type of the list fails the per-type mutable
    trait, whatever that type is. *)
Theorem buffers_type_total (TN : list type) :
  (beast.buffers_type TN = net.mutable_buffer
   \/ beast.buffers_type TN = net.const_buffer)
  /\ (beast.is_mutable_buffer_sequence TN = false ->
      beast.buffers_type TN = net.const_buffer)
  /\ (forall T, In T TN ->
      net.is_mutable_buffer_sequence (decay T) = false ->
      beast.buffers_type TN = net.const_buffer).
Proof.
  assert (Hf : beast.is_mutable_buffer_sequence TN = false ->
               beast.buffers_type TN = net.const_buffer).
  { unfold beast.buffers_type. now intros ->. }
  repeat split.
  - unfold beast.buffers_type, conditional.
    destruct (beast.is_mutable_buffer_sequence TN); [left | right]; reflexivity.
  - exact Hf.
  - intros T Hin HT. apply Hf.
    exact (mp_all_map_false _ TN T Hin HT).
Qed.

End Predicates.

(** ** The iteration type resolver *)

Section Iteration.

Context {N : net.Traits}.

(** Outside its two explicit specializations the helper is the primary
    template, whose body is the expression of the alias of lines 154-156. *)
Lemma helper_primary_template (T : type) :
  T <> net.const_buffer -> T <> net.mutable_buffer ->
  beast.detail.buffers_iterator_type_helper T
  = net.buffer_sequence_begin (declval (const_ref T)).
Proof.
  intros Hc Hm.
  destruct T as [[[] []] [| | id] | | | | | ]; try reflexivity.
  - now elim Hc.
  - now elim Hm.
Qed.

(** C6: under the workaround the resolver maps [net::const_buffer] to
    [net::const_buffer const*] and [net::mutable_buffer] to
    [net::mutable_buffer const*]; on any other type the helper is the
    deduction of the primary path, which the alias reaches with the decayed
    type. *)
Theorem fallback_lookup_table :
  beast.buffers_iterator_type true net.const_buffer
  = Some (pointer_to_const net.const_buffer)
  /\ beast.buffers_iterator_type true net.mutable_buffer
     = Some (pointer_to_const net.mutable_buffer)
  /\ (forall T, T <> net.const_buffer -> T <> net.mutable_buffer ->
      beast.detail.buffers_iterator_type_helper T
      = beast.buffers_iterator_type false T)
  /\ (forall T, decay T <> net.const_buffer -> decay T <> net.mutable_buffer ->
      beast.buffers_iterator_type true T
      = beast.buffers_iterator_type false (decay T)).
Proof.
  split; [reflexivity |]. split; [reflexivity |]. split.
  - intros T Hc Hm. now apply helper_primary_template.
  - intros T Hc Hm. unfold beast.buffers_iterator_type.
    now apply helper_primary_template.
Qed.

(** The two paths on a type whose decayed form is not one of the views. *)
Lemma paths_on_sequence (T : type) :
  const_ref T = const_ref (decay T) ->
  decay T <> net.const_buffer -> decay T <> net.mutable_buffer ->
  beast.buffers_iterator_type true T = beast.buffers_iterator_type false T.
Proof.
  intros HT Hc Hm. unfold beast.buffers_iterator_type.
  rewrite (helper_primary_template _ Hc Hm). now rewrite HT.
Qed.

(** The two paths on a type that decays to one of the views. *)
Lemma paths_on_view (T V : type) :
  V = net.const_buffer \/ V = net.mutable_buffer ->
  decay T = V ->
  const_ref T = const_ref V ->
  net.buffer_sequence_begin (const_ref V) = Some (pointer_to_const V) ->
  beast.buffers_iterator_type true T = Some (pointer_to_const V)
  /\ beast.buffers_iterator_type false T = Some (pointer_to_const V).
Proof.
  intros HV HT Href Hbegin. unfold beast.buffers_iterator_type.
  rewrite HT, declval_const_ref, Href, Hbegin.
  destruct HV; subst V; split; reflexivity.
Qed.

Lemma view_or_not (T : type) :
  T = net.const_buffer \/ T = net.mutable_buffer
  \/ (T <> net.const_buffer /\ T <> net.mutable_buffer).
Proof.
  destruct T as [[[] []] [| | id] | | | | | ];
    try (right; right; split; discriminate).
  - now left.
  - right. now left.
Qed.

(** Where the two paths do agree: on a type [T] whose [T const&] is the
    [T const&] of its decayed form, over an Asio whose
    [buffer_sequence_begin] gives the pointer to the constant view on each
    of the two views. *)
Lemma resolution_paths_agree (T : type) :
  const_ref T = const_ref (decay T) ->
  net.buffer_sequence_begin (const_ref net.const_buffer)
  = Some (pointer_to_const net.const_buffer) ->
  net.buffer_sequence_begin (const_ref net.mutable_buffer)
  = Some (pointer_to_const net.mutable_buffer) ->
  beast.buffers_iterator_type true T = beast.buffers_iterator_type false T.
Proof.
  intros HT Hcb Hmb.
  destruct (view_or_not (decay T)) as [Hv | [Hv | [Hc Hm]]].
  - destruct (paths_on_view T net.const_buffer) as [-> ->]; auto.
    now rewrite HT, Hv.
  - destruct (paths_on_view T net.mutable_buffer) as [-> ->]; auto.
    now rewrite HT, Hv.
  - now apply paths_on_sequence.
Qed.

(** C8: a type that is not a view and on whose constant-qualified instance
    [begin] has type [it] resolves to [it] on either path, through the
    deduction and not through the two table entries. *)
Theorem sequence_resolves_to_own_iterator (workaround : bool) (T it : type) :
  const_ref T = const_ref (decay T) ->
  decay T <> net.const_buffer -> decay T <> net.mutable_buffer ->
  net.buffer_sequence_begin (declval (const_ref T)) = Some it ->
  beast.buffers_iterator_type workaround T = Some it
  /\ beast.detail.buffers_iterator_type_helper (decay T)
     = net.buffer_sequence_begin (declval (const_ref T)).
Proof.
  intros HT Hc Hm Hit.
  assert (Hh : beast.detail.buffers_iterator_type_helper (decay T)
               = net.buffer_sequence_begin (declval (const_ref T))).
  { rewrite (helper_primary_template _ Hc Hm). now rewrite HT. }
  split; [| exact Hh].
  destruct workaround; unfold beast.buffers_iterator_type.
  - now rewrite Hh.
  - exact Hit.
Qed.

(** C9, amended: the primary path fails exactly when no overload of
    [buffer_sequence_begin] takes a [T const&]; the fallback path fails
    exactly when the decayed type [D] of [T] is none of the two views and no
    overload of [buffer_sequence_begin] takes a [D const&].  Each predicate
    is false on a list that holds a type whose decayed form fails the
    per-type trait. *)
Theorem resolution_fails_without_begin (T : type) :
  (beast.buffers_iterator_type false T = None
   <-> net.buffer_sequence_begin (const_ref T) = None)
  /\ (beast.buffers_iterator_type true T = None
      <-> decay T <> net.const_buffer /\ decay T <> net.mutable_buffer
          /\ net.buffer_sequence_begin (const_ref (decay T)) = None)
  /\ (forall TN, In T TN ->
      net.is_const_buffer_sequence (decay T) = false ->
      beast.is_const_buffer_sequence TN = false)
  /\ (forall TN, In T TN ->
      net.is_mutable_buffer_sequence (decay T) = false ->
      beast.is_mutable_buffer_sequence TN = false).
Proof.
  split; [reflexivity |]. split; [| split].
  - unfold beast.buffers_iterator_type.
    destruct (view_or_not (decay T)) as [Hv | [Hv | [Hc Hm]]].
    + rewrite Hv. split; [discriminate | intros [Hc _]; now elim Hc].
    + rewrite Hv. split; [discriminate | intros [_ [Hm _]]; now elim Hm].
    + rewrite (helper_primary_template _ Hc Hm), declval_const_ref.
      split; [intros H; now repeat split | intros [_ [_ H]]; exact H].
  - intros TN Hin HT. exact (mp_all_map_false _ TN T Hin HT).
  - intros TN Hin HT. exact (mp_all_map_false _ TN T Hin HT).
Qed.

End Iteration.

(** ** Which types keep their [T const&] under [decay] *)

(** A named or pointer type that is not volatile, with or without a top-level
    [const]: [decay] only removes the [const] that [T const&] adds again. *)
Lemma const_ref_decay_object (c : bool) (n : tyname) (p : type) :
  const_ref (Named (Cv c false) n) = const_ref (decay (Named (Cv c false) n))
  /\ const_ref (Ptr (Cv c false) p) = const_ref (decay (Ptr (Cv c false) p)).
Proof. split; reflexivity. Qed.

(** A reference to an object that is not constant does not: [T const&] is
    then the reference itself, by reference collapsing. *)
Lemma const_ref_decay_reference (n : tyname) :
  const_ref (LRef (Named unqualified n)) = LRef (Named unqualified n)
  /\ const_ref (decay (LRef (Named unqualified n))) = LRef (Named const n).
Proof. split; reflexivity. Qed.

(** ** The header over the Asio instance *)

(** The instance widens every class whose elements convert to
    [net::const_buffer]; the two vectors of views are such classes. *)
Lemma asio_widens_class (id : string) (d : asio.class_decl) :
  asio.classes id = Some d ->
  asio.is_convertible (asio.value_type d) const_buffer_name = true ->
  net.widens (N := asio.traits) (asio.class id).
Proof.
  intros Hid Hc. unfold net.widens. simpl. now rewrite Hid, Hc.
Qed.

(** Counterexample to C1 as stated: the elements of
    [std::vector<mutable_view>] convert to [net::mutable_buffer] and not to
    [net::const_buffer], so Asio, and the header after it, classify the
    vector as a mutable buffer sequence and not as a constant one. *)
Lemma mutable_sequence_is_no_const_sequence :
  beast.is_mutable_buffer_sequence [asio.vector_of_mutable_view] = true
  /\ beast.is_const_buffer_sequence [asio.vector_of_mutable_view] = false
  /\ beast.buffers_type [asio.vector_of_mutable_view] = net.mutable_buffer.
Proof. repeat split. Qed.

(** The testable properties 3 and 4 of the specification, run. *)
Example constant_only_member :
  let TN := [asio.vector_of_mutable_buffer; LRef asio.vector_of_const_buffer] in
  beast.is_mutable_buffer_sequence TN = false
  /\ beast.is_const_buffer_sequence TN = true
  /\ beast.buffers_type TN = net.const_buffer.
Proof. repeat split. Qed.

Example buffers_type_of_one :
  beast.buffers_type [asio.vector_of_const_buffer] = net.const_buffer
  /\ beast.buffers_type [RRef asio.vector_of_mutable_buffer]
     = net.mutable_buffer
  /\ beast.buffers_type [asio.int] = net.const_buffer.
Proof. repeat split. Qed.

(** A qualified or referenced view is a view for the predicates, because of
    [decay]; Asio alone answers [false] on [net::const_buffer const]. *)
Example decay_matters :
  net.is_const_buffer_sequence (add_const net.const_buffer) = false
  /\ beast.is_const_buffer_sequence
       [add_const net.const_buffer; LRef net.mutable_buffer] = true.
Proof. split; reflexivity. Qed.

(** Witness of C1, amended: a reference to a constant vector of mutable buffers and a
    mutable buffer. *)
Lemma mutable_sequence_is_const_sequence_witness :
  let TN := [LRef (add_const asio.vector_of_mutable_buffer);
             net.mutable_buffer] in
  Forall (fun T => net.widens (decay T)) TN
  /\ beast.is_mutable_buffer_sequence TN = true
  /\ beast.is_const_buffer_sequence TN = true.
Proof.
  intros TN.
  assert (Hw : Forall (fun T => net.widens (decay T)) TN).
  { repeat constructor. }
  assert (Hm : beast.is_mutable_buffer_sequence TN = true) by reflexivity.
  split; [exact Hw |]. split; [exact Hm |].
  exact (mutable_sequence_is_const_sequence TN Hw Hm).
Defined.

(** C7, at the failing input [std::vector<net::mutable_buffer>&]: both
    paths resolve and they differ.  The fallback decays the type first and
    gives the [const_iterator] of the vector, the iterator of a constant
    instance; on the primary path [T const&] is [T] itself, by reference
    collapsing, so the instance is not constant and the result is the
    [iterator]. *)
Theorem resolution_paths_differ_on_reference :
  beast.buffers_iterator_type true (LRef asio.vector_of_mutable_buffer)
  = Some (asio.class "std::vector<net::mutable_buffer>::const_iterator")
  /\ beast.buffers_iterator_type false (LRef asio.vector_of_mutable_buffer)
     = Some (asio.class "std::vector<net::mutable_buffer>::iterator")
  /\ beast.buffers_iterator_type true (LRef asio.vector_of_mutable_buffer)
     <> beast.buffers_iterator_type false (LRef asio.vector_of_mutable_buffer).
Proof. repeat split. discriminate. Qed.

(** On the constant vector, not taken by reference, the paths agree. *)
Example resolution_paths_agree_on_vector :
  let T := add_const asio.vector_of_mutable_buffer in
  beast.buffers_iterator_type true T = beast.buffers_iterator_type false T
  /\ beast.buffers_iterator_type false T
     = Some (asio.class "std::vector<net::mutable_buffer>::const_iterator").
Proof.
  intros T. split; [| reflexivity].
  exact (resolution_paths_agree (N := asio.traits) T eq_refl eq_refl eq_refl).
Qed.

(** Witness of C8: under the workaround a vector of mutable buffers resolves
    to its own [const_iterator]. *)
Lemma sequence_resolves_to_own_iterator_witness :
  beast.buffers_iterator_type true asio.vector_of_mutable_buffer
  = Some (asio.class "std::vector<net::mutable_buffer>::const_iterator").
Proof.
  refine (proj1 (sequence_resolves_to_own_iterator (N := asio.traits) true
                   asio.vector_of_mutable_buffer _ eq_refl _ _ eq_refl));
    discriminate.
Defined.

(** Counterexample to C9 as stated: [std::string] is no buffer sequence for
    either predicate and is none of the two views, and the resolver gives its
    [const_iterator] on both paths, because [begin] exists on it. *)
Lemma string_is_no_sequence_and_resolves :
  beast.is_const_buffer_sequence [asio.std_string] = false
  /\ beast.is_mutable_buffer_sequence [asio.std_string] = false
  /\ decay asio.std_string <> net.const_buffer
  /\ decay asio.std_string <> net.mutable_buffer
  /\ beast.buffers_iterator_type false asio.std_string
     = Some (asio.class "std::string::const_iterator")
  /\ beast.buffers_iterator_type true asio.std_string
     = Some (asio.class "std::string::const_iterator").
Proof. repeat split; discriminate. Qed.

(** A type without [begin] does fail, on both paths. *)
Example int_does_not_resolve :
  beast.buffers_iterator_type false asio.int = None
  /\ beast.buffers_iterator_type true asio.int = None
  /\ beast.is_const_buffer_sequence [asio.int] = false.
Proof. repeat split. Qed.

(** * Further properties of the header *)

(** ** [decay] on the types a program can write *)

(** There is no reference to a reference, so what a reference refers to is
    not a reference; [decay] is then idempotent. *)
Lemma decay_idempotent (T : type) :
  is_reference (remove_reference T) = false -> decay (decay T) = decay T.
Proof.
  unfold decay.
  destruct (remove_reference T) as [q n | q p | e b | r ps | U | U];
    simpl; try reflexivity; discriminate.
Qed.

Lemma decay_reference (T : type) :
  is_reference T = false ->
  decay (LRef T) = decay T /\ decay (RRef T) = decay T.
Proof. destruct T; simpl; try discriminate; split; reflexivity. Qed.

Lemma decay_add_const (T : type) :
  is_array T = false -> decay (add_const T) = decay T.
Proof.
  destruct T as [q n | q p | e b | r ps | U | U]; simpl; try reflexivity.
  discriminate.
Qed.

Lemma mp_all_app (L M : list bool) :
  mp11.mp_all (L ++ M) = mp11.mp_all L && mp11.mp_all M.
Proof. rewrite !mp_all_forallb. apply forallb_app. Qed.

Lemma mp_all_map_ext_in {A : Type} (f g : A -> bool) (l : list A) :
  Forall (fun x => f x = g x) l ->
  mp11.mp_all (map f l) = mp11.mp_all (map g l).
Proof.
  induction 1 as [| x l Hx _ IH]; [reflexivity |].
  simpl map. now rewrite !mp_all_cons, Hx, IH.
Qed.

Lemma mp_all_map_incl {A : Type} (f : A -> bool) (l m : list A) :
  incl m l -> mp11.mp_all (map f l) = true -> mp11.mp_all (map f m) = true.
Proof.
  rewrite !mp_all_map_true, !Forall_forall. intros Hincl Hl x Hx.
  apply Hl, Hincl, Hx.
Qed.

Section Composition.

Context {N : net.Traits}.

(** X1: each predicate on the concatenation of two lists is the conjunction
    of the predicate on the two lists. *)
Theorem predicates_of_concatenation (TN SN : list type) :
  beast.is_const_buffer_sequence (TN ++ SN)
  = beast.is_const_buffer_sequence TN && beast.is_const_buffer_sequence SN
  /\ beast.is_mutable_buffer_sequence (TN ++ SN)
     = beast.is_mutable_buffer_sequence TN
       && beast.is_mutable_buffer_sequence SN.
Proof.
  unfold beast.is_const_buffer_sequence, beast.is_mutable_buffer_sequence.
  rewrite !map_app, !mp_all_app. split; reflexivity.
Qed.

(** X2: a predicate true of a list is true of every list made of types of
    that list, in any order and with any repetition. *)
Theorem predicates_of_sublist (TN SN : list type) :
  incl SN TN ->
  (beast.is_const_buffer_sequence TN = true ->
   beast.is_const_buffer_sequence SN = true)
  /\ (beast.is_mutable_buffer_sequence TN = true ->
      beast.is_mutable_buffer_sequence SN = true).
Proof. intros Hincl. split; now apply mp_all_map_incl. Qed.

(** X3: the predicates do not see references: on a list of types that are
    not references, making each an lvalue or an rvalue reference changes
    neither predicate. *)
Theorem predicates_ignore_references (TN : list type) :
  Forall (fun T => is_reference T = false) TN ->
  beast.is_const_buffer_sequence (map LRef TN)
  = beast.is_const_buffer_sequence TN
  /\ beast.is_const_buffer_sequence (map RRef TN)
     = beast.is_const_buffer_sequence TN
  /\ beast.is_mutable_buffer_sequence (map LRef TN)
     = beast.is_mutable_buffer_sequence TN
  /\ beast.is_mutable_buffer_sequence (map RRef TN)
     = beast.is_mutable_buffer_sequence TN.
Proof.
  intros H.
  unfold beast.is_const_buffer_sequence, beast.is_mutable_buffer_sequence.
  rewrite !map_map.
  repeat split; apply mp_all_map_ext_in; eapply Forall_impl; try exact H;
    intros T HT; cbv beta;
    destruct (decay_reference T HT) as [Hl Hr]; now rewrite ?Hl, ?Hr.
Qed.

(** X4: the predicates do not see a top-level [const]: on a list of types
    that are not arrays, qualifying each with [const] changes neither
    predicate.  (The decayed form of an array of constant elements is a
    pointer to a constant element, another type.) *)
Theorem predicates_ignore_const (TN : list type) :
  Forall (fun T => is_array T = false) TN ->
  beast.is_const_buffer_sequence (map add_const TN)
  = beast.is_const_buffer_sequence TN
  /\ beast.is_mutable_buffer_sequence (map add_const TN)
     = beast.is_mutable_buffer_sequence TN.
Proof.
  intros H.
  unfold beast.is_const_buffer_sequence, beast.is_mutable_buffer_sequence.
  rewrite !map_map.
  split; apply mp_all_map_ext_in; eapply Forall_impl; try exact H;
    intros T HT; cbv beta; now rewrite (decay_add_const T HT).
Qed.

(** X5: the predicates on a list and on the list of its decayed types are
    the same, for types with no reference to a reference. *)
Theorem predicates_of_decayed_list (TN : list type) :
  Forall (fun T => is_reference (remove_reference T) = false) TN ->
  beast.is_const_buffer_sequence (map decay TN)
  = beast.is_const_buffer_sequence TN
  /\ beast.is_mutable_buffer_sequence (map decay TN)
     = beast.is_mutable_buffer_sequence TN.
Proof.
  intros H.
  unfold beast.is_const_buffer_sequence, beast.is_mutable_buffer_sequence.
  rewrite !map_map.
  split; apply mp_all_map_ext_in; eapply Forall_impl; try exact H;
    intros T HT; cbv beta; now rewrite (decay_idempotent T HT).
Qed.

Lemma buffers_type_mutable_iff (TN : list type) :
  beast.buffers_type TN = net.mutable_buffer
  <-> beast.is_mutable_buffer_sequence TN = true.
Proof.
  unfold beast.buffers_type, conditional.
  destruct (beast.is_mutable_buffer_sequence TN); split;
    try reflexivity; discriminate.
Qed.

(** X6: the view of a concatenation is the read-write view exactly when the
    views of both lists are, and the read-only view otherwise. *)
Theorem buffers_type_of_concatenation (TN SN : list type) :
  (beast.buffers_type (TN ++ SN) = net.mutable_buffer
   <-> beast.buffers_type TN = net.mutable_buffer
       /\ beast.buffers_type SN = net.mutable_buffer)
  /\ (beast.buffers_type (TN ++ SN) = net.const_buffer
      <-> ~ (beast.buffers_type TN = net.mutable_buffer
             /\ beast.buffers_type SN = net.mutable_buffer)).
Proof.
  assert (Hm : beast.buffers_type (TN ++ SN) = net.mutable_buffer
               <-> beast.buffers_type TN = net.mutable_buffer
                   /\ beast.buffers_type SN = net.mutable_buffer).
  { rewrite !buffers_type_mutable_iff.
    unfold beast.is_mutable_buffer_sequence.
    rewrite map_app, mp_all_app. apply andb_true_iff. }
  split; [exact Hm |]. rewrite <- Hm.
  unfold beast.buffers_type, conditional.
  destruct (beast.is_mutable_buffer_sequence (TN ++ SN)); split.
  - discriminate.
  - intros H. now elim H.
  - intros _. discriminate.
  - reflexivity.
Qed.

(** X7: types taken from a list whose view is the read-write view have the
    read-write view; adding types to a list can only narrow its view. *)
Theorem buffers_type_of_sublist (TN SN : list type) :
  incl SN TN ->
  beast.buffers_type TN = net.mutable_buffer ->
  beast.buffers_type SN = net.mutable_buffer.
Proof.
  rewrite !buffers_type_mutable_iff. intros Hincl.
  now apply mp_all_map_incl.
Qed.

(** X8: when Asio classifies [net::mutable_buffer] as a mutable buffer
    sequence and [net::const_buffer] as none, the view of a list, taken as a
    one-element list, is its own view. *)
Theorem buffers_type_idempotent (TN : list type) :
  net.is_mutable_buffer_sequence net.mutable_buffer = true ->
  net.is_mutable_buffer_sequence net.const_buffer = false ->
  beast.buffers_type [beast.buffers_type TN] = beast.buffers_type TN.
Proof.
  intros Hm Hc. unfold beast.buffers_type, conditional.
  destruct (beast.is_mutable_buffer_sequence TN).
  - change (beast.is_mutable_buffer_sequence [net.mutable_buffer])
      with (net.is_mutable_buffer_sequence net.mutable_buffer).
    now rewrite Hm.
  - change (beast.is_mutable_buffer_sequence [net.const_buffer])
      with (net.is_mutable_buffer_sequence net.const_buffer).
    now rewrite Hc.
Qed.

(** X9: under the workaround the iteration type of the view of any list is
    the pointer to that constant view; no list makes the composition fail. *)
Theorem fallback_iterator_of_buffers_type (TN : list type) :
  beast.buffers_iterator_type true (beast.buffers_type TN)
  = Some (pointer_to_const (beast.buffers_type TN)).
Proof.
  unfold beast.buffers_type, conditional.
  destruct (beast.is_mutable_buffer_sequence TN); reflexivity.
Qed.

(** X10: under the workaround every qualified or referenced form of a view
    resolves to the table entry of the view, a volatile one included; Asio
    is not consulted. *)
Theorem fallback_on_qualified_view (q : cv) :
  let const_buffer_q := Named q const_buffer_name in
  let mutable_buffer_q := Named q mutable_buffer_name in
  (beast.buffers_iterator_type true const_buffer_q
   = Some (pointer_to_const net.const_buffer)
   /\ beast.buffers_iterator_type true (LRef const_buffer_q)
      = Some (pointer_to_const net.const_buffer)
   /\ beast.buffers_iterator_type true (RRef const_buffer_q)
      = Some (pointer_to_const net.const_buffer))
  /\ (beast.buffers_iterator_type true mutable_buffer_q
      = Some (pointer_to_const net.mutable_buffer)
      /\ beast.buffers_iterator_type true (LRef mutable_buffer_q)
         = Some (pointer_to_const net.mutable_buffer)
      /\ beast.buffers_iterator_type true (RRef mutable_buffer_q)
         = Some (pointer_to_const net.mutable_buffer)).
Proof. repeat split. Qed.

(** X11: the primary path does not see a top-level [const] on [T], and takes
    an rvalue reference as the lvalue reference: [T const&] is the same type
    in each case. *)
Theorem primary_path_ignores_const (T : type) :
  beast.buffers_iterator_type false (add_const T)
  = beast.buffers_iterator_type false T
  /\ beast.buffers_iterator_type false (RRef T)
     = beast.buffers_iterator_type false (LRef T).
Proof.
  unfold beast.buffers_iterator_type. split.
  - now rewrite const_ref_add_const.
  - reflexivity.
Qed.

(** X12: under the workaround the resolver does not see references, nor a
    top-level [const] on a type that is not an array. *)
Theorem fallback_path_ignores_qualification (T : type) :
  (is_reference T = false ->
   beast.buffers_iterator_type true (LRef T)
   = beast.buffers_iterator_type true T
   /\ beast.buffers_iterator_type true (RRef T)
      = beast.buffers_iterator_type true T)
  /\ (is_array T = false ->
      beast.buffers_iterator_type true (add_const T)
      = beast.buffers_iterator_type true T).
Proof.
  unfold beast.buffers_iterator_type. split.
  - intros HT. destruct (decay_reference T HT) as [-> ->]. now split.
  - intros HT. now rewrite (decay_add_const T HT).
Qed.

End Composition.

(** ** The further properties over the Asio instance *)

(** Witness of X2: two of the three types of a constant list, one repeated. *)
Lemma predicates_of_sublist_witness :
  let TN := [asio.vector_of_mutable_buffer; LRef asio.vector_of_const_buffer;
             net.const_buffer] in
  let SN := [net.const_buffer; LRef asio.vector_of_const_buffer;
             net.const_buffer] in
  incl SN TN
  /\ beast.is_const_buffer_sequence TN = true
  /\ beast.is_const_buffer_sequence SN = true.
Proof.
  intros TN SN.
  assert (Hincl : incl SN TN).
  { intros T [<- | [<- | [<- | []]]]; simpl; auto. }
  split; [exact Hincl |]. split; [reflexivity |].
  exact (proj1 (predicates_of_sublist TN SN Hincl) eq_refl).
Defined.

(** Witness of X3: a vector of mutable buffers and a constant vector of
    constant buffers, taken by reference. *)
Lemma predicates_ignore_references_witness :
  let TN := [asio.vector_of_mutable_buffer;
             add_const asio.vector_of_const_buffer] in
  Forall (fun T => is_reference T = false) TN
  /\ beast.is_const_buffer_sequence (map LRef TN) = true
  /\ beast.is_mutable_buffer_sequence (map RRef TN) = false.
Proof.
  intros TN.
  assert (H : Forall (fun T => is_reference T = false) TN).
  { repeat constructor. }
  split; [exact H |].
  destruct (predicates_ignore_references TN H) as [Hcl [_ [_ Hmr]]].
  split; [rewrite Hcl | rewrite Hmr]; reflexivity.
Defined.

(** Witness of X4: a vector and a reference to a vector. *)
Lemma predicates_ignore_const_witness :
  let TN := [asio.vector_of_mutable_buffer; LRef asio.vector_of_const_buffer] in
  Forall (fun T => is_array T = false) TN
  /\ beast.is_const_buffer_sequence (map add_const TN) = true
  /\ beast.is_mutable_buffer_sequence (map add_const TN) = false.
Proof.
  intros TN.
  assert (H : Forall (fun T => is_array T = false) TN).
  { repeat constructor. }
  split; [exact H |].
  destruct (predicates_ignore_const TN H) as [Hc Hm].
  split; [rewrite Hc | rewrite Hm]; reflexivity.
Defined.

(** Witness of X5: a reference to a constant vector and an rvalue reference
    to a mutable buffer. *)
Lemma predicates_of_decayed_list_witness :
  let TN := [LRef (add_const asio.vector_of_mutable_buffer);
             RRef net.mutable_buffer] in
  Forall (fun T => is_reference (remove_reference T) = false) TN
  /\ map decay TN = [asio.vector_of_mutable_buffer; net.mutable_buffer]
  /\ beast.is_mutable_buffer_sequence (map decay TN)
     = beast.is_mutable_buffer_sequence TN.
Proof.
  intros TN.
  assert (H : Forall (fun T => is_reference (remove_reference T) = false) TN).
  { repeat constructor. }
  split; [exact H |]. split; [reflexivity |].
  exact (proj2 (predicates_of_decayed_list TN H)).
Defined.

(** Witness of X7: the mutable buffer of a list of two mutable sequences. *)
Lemma buffers_type_of_sublist_witness :
  let TN := [asio.vector_of_mutable_buffer; net.mutable_buffer] in
  let SN := [net.mutable_buffer; net.mutable_buffer] in
  incl SN TN
  /\ beast.buffers_type TN = net.mutable_buffer
  /\ beast.buffers_type SN = net.mutable_buffer.
Proof.
  intros TN SN.
  assert (Hincl : incl SN TN).
  { intros T [<- | [<- | []]]; simpl; auto. }
  split; [exact Hincl |]. split; [reflexivity |].
  exact (buffers_type_of_sublist TN SN Hincl eq_refl).
Defined.

(** Witness of X8: the view of a vector of constant buffers. *)
Lemma buffers_type_idempotent_witness :
  net.is_mutable_buffer_sequence net.mutable_buffer = true
  /\ net.is_mutable_buffer_sequence net.const_buffer = false
  /\ beast.buffers_type [beast.buffers_type [asio.vector_of_const_buffer]]
     = beast.buffers_type [asio.vector_of_const_buffer].
Proof.
  split; [reflexivity |]. split; [reflexivity |].
  exact (buffers_type_idempotent (N := asio.traits)
           [asio.vector_of_const_buffer] eq_refl eq_refl).
Defined.

(** The exception of X4 is real for [decay]: an array of constant buffers
    decays to a pointer to a constant buffer, an array of buffers to a
    pointer to a buffer. *)
Example decay_of_constant_array :
  decay (add_const (Arr net.const_buffer (Some 2)))
  = Ptr unqualified (add_const net.const_buffer)
  /\ decay (Arr net.const_buffer (Some 2)) = Ptr unqualified net.const_buffer.
Proof. split; reflexivity. Qed.

(** What X10 and X11 leave apart: on a volatile view the workaround resolves
    and the primary path over the Asio instance does not. *)
Example volatile_view :
  beast.buffers_iterator_type true (Named (Cv false true) const_buffer_name)
  = Some (pointer_to_const net.const_buffer)
  /\ beast.buffers_iterator_type false (Named (Cv false true) const_buffer_name)
     = None.
Proof. split; reflexivity. Qed.
